(** * Session, catalog and view orchestration of [src/App.tsx]

    A shallow embedding of the [App] component: its eight [useState] cells,
    the browser's [localStorage], the requests it hands to [fetch] and the
    continuations that wait for them.  Every handler of the component is a
    computation in a small state-and-exception monad, written in the order of
    the source; an [async] handler is cut at its [await] into the part that
    runs when it is called and the part that runs when the request settles. *)

From Stdlib Require Import ZArith NArith Ascii String List Bool Lia.
From stdpp Require Import gmap strings pretty.
Import ListNotations.

Set Warnings "-register-all".
Local Open Scope string_scope.
Local Open Scope list_scope.

(** ** The platform functions the component calls *)

Module Base64.

(** [atob] follows the forgiving-base64 decode of the WHATWG Infra standard:
    ASCII whitespace is dropped, one or two trailing [=] are dropped when the
    length is a multiple of four, a length of 1 modulo 4 or a character
    outside the alphabet is an [InvalidCharacterError]. *)

Definition is_ascii_whitespace (c : ascii) : bool :=
  let n := N_of_ascii c in
  (n =? 9)%N || (n =? 10)%N || (n =? 12)%N || (n =? 13)%N || (n =? 32)%N.

Definition sextet (c : ascii) : option N :=
  let n := N_of_ascii c in
  if ((65 <=? n) && (n <=? 90))%N then Some (n - 65)%N
  else if ((97 <=? n) && (n <=? 122))%N then Some (n - 71)%N
  else if ((48 <=? n) && (n <=? 57))%N then Some (n + 4)%N
  else if (n =? 43)%N then Some 62%N
  else if (n =? 47)%N then Some 63%N
  else None.

Fixpoint sextets (cs : list ascii) : option (list N) :=
  match cs with
  | [] => Some []
  | c :: cs' =>
      match sextet c, sextets cs' with
      | Some v, Some vs => Some (v :: vs)
      | _, _ => None
      end
  end.

Definition byte_of (n : N) : ascii := ascii_of_N (N.land n 255).

Fixpoint octets (vs : list N) : list ascii :=
  match vs with
  | a :: b :: c :: d :: rest =>
      let w := N.lor (N.lor (N.shiftl a 18) (N.shiftl b 12))
                     (N.lor (N.shiftl c 6) d) in
      byte_of (N.shiftr w 16) :: byte_of (N.shiftr w 8) :: byte_of w
        :: octets rest
  | [a; b; c] =>
      let w := N.lor (N.lor (N.shiftl a 10) (N.shiftl b 4)) (N.shiftr c 2) in
      [byte_of (N.shiftr w 8); byte_of w]
  | [a; b] => [byte_of (N.lor (N.shiftl a 2) (N.shiftr b 4))]
  | _ => []
  end.

Definition is_pad (c : ascii) : bool := (N_of_ascii c =? 61)%N.

Definition strip_padding (cs : list ascii) : list ascii :=
  if (N.of_nat (length cs) mod 4 =? 0)%N then
    match rev cs with
    | p :: q :: r =>
        if is_pad p then (if is_pad q then rev r else rev (q :: r)) else cs
    | _ => cs
    end
  else cs.

Definition atob (data : string) : option string :=
  let cs := List.filter (fun c => negb (is_ascii_whitespace c))
                        (list_ascii_of_string data) in
  let cs := strip_padding cs in
  if (N.of_nat (length cs) mod 4 =? 1)%N then None
  else match sextets cs with
       | Some vs => Some (string_of_list_ascii (octets vs))
       | None => None
       end.

End Base64.

(** ** JavaScript values *)

Inductive Exn : Set :=
| TypeError              (* property of null/undefined, call of a non-function *)
| SyntaxError            (* JSON.parse, response.json() *)
| InvalidCharacterError  (* atob *)
| NetworkFailure.        (* fetch rejected *)

Inductive JSValue (number : Type) : Type :=
| VUndefined
| VNull
| VBool (b : bool)
| VNum (n : number)
| VStr (s : string)
| VArr (elems : list (JSValue number))
| VObj (props : list (string * JSValue number)).

Arguments VUndefined {number}.
Arguments VNull {number}.
Arguments VBool {number} b.
Arguments VNum {number} n.
Arguments VStr {number} s.
Arguments VArr {number} elems.
Arguments VObj {number} props.

(** Numbers are IEEE doubles; the component never computes with one, so the
    type and the three conversions the code applies to it implicitly stay
    abstract.  [JSON_parse] is the platform's parser ([None]: it throws
    [SyntaxError]) and [REACT_APP_API_URL] the build-time environment entry
    ([None]: not set). *)
Class Platform : Type := {
  number : Type;
  Number_toString : number -> string;
  Number_toBoolean : number -> bool;
  Number_sameValue : number -> number -> bool;
  JSON_parse : string -> option (JSValue number);
  REACT_APP_API_URL : option string
}.

Section App.

Context {P : Platform}.

Abbreviation JSValue := (JSValue number).

Definition isArray (v : JSValue) : bool :=
  match v with VArr _ => true | _ => false end.

Definition nullish (v : JSValue) : bool :=
  match v with VUndefined | VNull => true | _ => false end.

(** ToBoolean: what [if (v)], [!v] and [v ? a : b] test. *)
Definition truthy (v : JSValue) : bool :=
  match v with
  | VUndefined | VNull => false
  | VBool b => b
  | VNum n => Number_toBoolean n
  | VStr s => negb (String.eqb s EmptyString)
  | VArr _ | VObj _ => true
  end.

Fixpoint lookup_prop (k : string) (props : list (string * JSValue)) : JSValue :=
  match props with
  | [] => VUndefined
  | (k', v) :: rest => if String.eqb k k' then v else lookup_prop k rest
  end.

(** [v.k] for the property names the component reads ([token], [role],
    [id], [enrolled]): none of them is a built-in property of strings,
    numbers, booleans or arrays, so only an object can have one; reading a
    property of [null] or [undefined] throws. *)
Definition get (v : JSValue) (k : string) : Exn + JSValue :=
  match v with
  | VUndefined | VNull => inl TypeError
  | VObj props => inr (lookup_prop k props)
  | _ => inr VUndefined
  end.

(** [v?.k] *)
Definition get_opt (v : JSValue) (k : string) : JSValue :=
  match get v k with inl _ => VUndefined | inr x => x end.

(** [v === 'lit'] *)
Definition is_string (v : JSValue) (lit : string) : bool :=
  match v with VStr s => String.eqb s lit | _ => false end.

(** ToString, as applied by [localStorage.setItem] to its value.  An
    array joins its elements with commas, [null] and [undefined] elements
    as empty strings. *)
Fixpoint toString (v : JSValue) : string :=
  match v with
  | VUndefined => "undefined"
  | VNull => "null"
  | VBool true => "true"
  | VBool false => "false"
  | VNum n => Number_toString n
  | VStr s => s
  | VArr elems =>
      (fix join (l : list JSValue) : string :=
         match l with
         | [] => EmptyString
         | [x] => if nullish x then EmptyString else toString x
         | x :: rest =>
             (if nullish x then EmptyString else toString x) +:+ "," +:+ join rest
         end) elems
  | VObj _ => "[object Object]"
  end.

(** SameValue ([Object.is]), which React uses to compare a dependency with
    its previous value.  Two objects or arrays are the same only if they
    are one allocation; every object the component stores in [user] comes
    fresh out of [JSON.parse], so it is never the same as the one before. *)
Definition sameValue (a b : JSValue) : bool :=
  match a, b with
  | VUndefined, VUndefined | VNull, VNull => true
  | VBool x, VBool y => Bool.eqb x y
  | VNum x, VNum y => Number_sameValue x y
  | VStr x, VStr y => String.eqb x y
  | _, _ => false
  end.

(** [s.split('.')]: the pieces between the dots, at least one piece. *)
Fixpoint split_dot (s : string) : list string :=
  match s with
  | EmptyString => [EmptyString]
  | String c rest =>
      if Ascii.eqb c "."%char then EmptyString :: split_dot rest
      else match split_dot rest with
           | piece :: pieces => String c piece :: pieces
           | [] => [String c EmptyString]
           end
  end.

(** [v.split('.')] on a value that came out of JSON: only a string has the
    method; [null] and [undefined] have no properties and on anything else
    [split] is [undefined] or a JSON value, never a function. *)
Definition split (v : JSValue) : Exn + list string :=
  match v with
  | VStr s => inr (split_dot s)
  | _ => inl TypeError
  end.

(** [atob(pieces[1])]: a missing piece is [undefined], which [atob] turns
    into the text "undefined". *)
Definition atob (piece : option string) : Exn + string :=
  match Base64.atob (match piece with Some s => s | None => "undefined" end) with
  | Some s => inr s
  | None => inl InvalidCharacterError
  end.

(** Template-literal interpolation of a value that may be missing:
    [`${process.env.X}`] and [`Bearer ${localStorage.getItem('token')}`]. *)
Definition interpolate (missing : string) (o : option string) : string :=
  match o with Some s => s | None => missing end.

(** ** Requests, responses and what the user sees or does *)

Inductive Method : Set := GET | POST.

(** [request_body] is the value handed to [JSON.stringify]. *)
Record Request : Type := mkRequest {
  method : Method;
  url : string;
  headers : list (string * string);
  request_body : option JSValue
}.

(** How a [fetch] settles: the promise rejects (no connection), or a
    response arrives with a status and a body whose [json()] either parses
    ([Some]) or rejects ([None]).  No handler reads or writes anything
    between [await fetch(...)] and [await response.json()], so the two are
    taken in one step. *)
Inductive Outcome : Type :=
| Rejected
| Responded (status : Z) (body : option JSValue).

(** [response.ok] *)
Definition ok (status : Z) : bool := (200 <=? status)%Z && (status <=? 299)%Z.

Inductive Effect : Type :=
| Fetch (r : Request)
| Alert (msg : string)
| Console (msg : string) (e : Exn)
| UnhandledRejection (e : Exn).

(** The four places where an [async] function of the component waits. *)
Inductive Task : Set :=
| InSessionInit      (* initializeSession, line 42 *)
| InFetchCourses     (* fetchCourses, line 59 *)
| InLogin            (* handleLogin, line 84 *)
| InEnroll.          (* handleEnrollConfirm, line 119 *)

(** The eight state cells of lines 24-31, the browser storage, the
    continuations that wait for a response, everything the component has
    sent or shown, and whether [user] differs from the value of the last
    committed render (the dependency of the effect of lines 75-79). *)
Record World : Type := mkWorld {
  currentView : string;
  user : JSValue;
  courses : JSValue;
  selectedCourse : JSValue;
  isLoading : bool;
  error : option string;
  showConfirmDialog : JSValue;
  enrollingCourse : bool;
  localStorage : gmap string string;
  pending : list Task;
  effects : list Effect;
  userChanged : bool
}.

(** ** The monad of a running handler *)

Definition M (A : Type) : Type := World -> (Exn + A) * World.

Definition ret {A} (a : A) : M A := fun w => (inr a, w).

Definition throw {A} (e : Exn) : M A := fun w => (inl e, w).

Definition bind {A B} (m : M A) (k : A -> M B) : M B :=
  fun w => match m w with
           | (inr a, w') => k a w'
           | (inl e, w') => (inl e, w')
           end.

Definition lift {A} (r : Exn + A) : M A :=
  match r with inl e => throw e | inr a => ret a end.

(** [try { body } catch (e) { handler }] *)
Definition try_catch {A} (body : M A) (handler : Exn -> M A) : M A :=
  fun w => match body w with
           | (inr a, w') => (inr a, w')
           | (inl e, w') => handler e w'
           end.

(** [try { body } finally { cleanup }] *)
Definition try_finally {A} (body : M A) (cleanup : M unit) : M A :=
  fun w => match body w with
           | (r, w') =>
               match cleanup w' with
               | (inr _, w'') => (r, w'')
               | (inl e, w'') => (inl e, w'')
               end
           end.

Notation "x <- m ;; k" := (bind m (fun x => k))
  (at level 100, m at next level, k at level 200, right associativity).
Notation "m ;; k" := (bind m (fun _ => k))
  (at level 100, k at level 200, right associativity).

(** *** State setters, storage and the outside world *)

Definition setCurrentView (v : string) : M unit := fun w =>
  (inr tt, mkWorld v (user w) (courses w) (selectedCourse w) (isLoading w)
                   (error w) (showConfirmDialog w) (enrollingCourse w)
                   (localStorage w) (pending w) (effects w) (userChanged w)).

(** [setUser] also notes whether the effect that depends on [user] is due
    after the next render. *)
Definition setUser (v : JSValue) : M unit := fun w =>
  (inr tt, mkWorld (currentView w) v (courses w) (selectedCourse w)
                   (isLoading w) (error w) (showConfirmDialog w)
                   (enrollingCourse w) (localStorage w) (pending w)
                   (effects w)
                   (userChanged w || negb (sameValue (user w) v))).

Definition setCourses (v : JSValue) : M unit := fun w =>
  (inr tt, mkWorld (currentView w) (user w) v (selectedCourse w)
                   (isLoading w) (error w) (showConfirmDialog w)
                   (enrollingCourse w) (localStorage w) (pending w)
                   (effects w) (userChanged w)).

Definition setSelectedCourse (v : JSValue) : M unit := fun w =>
  (inr tt, mkWorld (currentView w) (user w) (courses w) v (isLoading w)
                   (error w) (showConfirmDialog w) (enrollingCourse w)
                   (localStorage w) (pending w) (effects w) (userChanged w)).

Definition setIsLoading (b : bool) : M unit := fun w =>
  (inr tt, mkWorld (currentView w) (user w) (courses w) (selectedCourse w) b
                   (error w) (showConfirmDialog w) (enrollingCourse w)
                   (localStorage w) (pending w) (effects w) (userChanged w)).

Definition setError (e : option string) : M unit := fun w =>
  (inr tt, mkWorld (currentView w) (user w) (courses w) (selectedCourse w)
                   (isLoading w) e (showConfirmDialog w) (enrollingCourse w)
                   (localStorage w) (pending w) (effects w) (userChanged w)).

Definition setShowConfirmDialog (v : JSValue) : M unit := fun w =>
  (inr tt, mkWorld (currentView w) (user w) (courses w) (selectedCourse w)
                   (isLoading w) (error w) v (enrollingCourse w)
                   (localStorage w) (pending w) (effects w) (userChanged w)).

Definition setEnrollingCourse (b : bool) : M unit := fun w =>
  (inr tt, mkWorld (currentView w) (user w) (courses w) (selectedCourse w)
                   (isLoading w) (error w) (showConfirmDialog w) b
                   (localStorage w) (pending w) (effects w) (userChanged w)).

Definition with_storage (f : gmap string string -> gmap string string) : M unit :=
  fun w =>
  (inr tt, mkWorld (currentView w) (user w) (courses w) (selectedCourse w)
                   (isLoading w) (error w) (showConfirmDialog w)
                   (enrollingCourse w) (f (localStorage w)) (pending w)
                   (effects w) (userChanged w)).

Definition getItem (k : string) : M (option string) :=
  fun w => (inr (localStorage w !! k), w).

Definition setItem (k v : string) : M unit := with_storage (insert k v).

Definition removeItem (k : string) : M unit := with_storage (delete k).

Definition emit (e : Effect) : M unit := fun w =>
  (inr tt, mkWorld (currentView w) (user w) (courses w) (selectedCourse w)
                   (isLoading w) (error w) (showConfirmDialog w)
                   (enrollingCourse w) (localStorage w) (pending w)
                   (effects w ++ [e]) (userChanged w)).

Definition alert (msg : string) : M unit := emit (Alert msg).

Definition console (msg : string) (e : Exn) : M unit := emit (Console msg e).

(** [await fetch(...)]: the request leaves and the caller is parked until
    it settles. *)
Definition fetch (r : Request) (caller : Task) : M unit := fun w =>
  (inr tt, mkWorld (currentView w) (user w) (courses w) (selectedCourse w)
                   (isLoading w) (error w) (showConfirmDialog w)
                   (enrollingCourse w) (localStorage w)
                   (pending w ++ [caller]) (effects w ++ [Fetch r])
                   (userChanged w)).

(** What [await fetch(...)] evaluates to once settled. *)
Definition await (o : Outcome) : M (Z * option JSValue) :=
  match o with
  | Rejected => throw NetworkFailure
  | Responded status body => ret (status, body)
  end.

(** [await response.json()] *)
Definition json (response : Z * option JSValue) : M JSValue :=
  match snd response with
  | Some v => ret v
  | None => throw SyntaxError
  end.

(** [JSON.parse(atob(token.split('.')[1]))], the expression of lines 38
    and 94. *)
Definition payload (token : JSValue) : Exn + JSValue :=
  match split token with
  | inl e => inl e
  | inr pieces =>
      match atob (pieces !! 1%nat) with
      | inl e => inl e
      | inr text =>
          match JSON_parse text with
          | Some v => inr v
          | None => inl SyntaxError
          end
      end
  end.

Definition api (path : string) : string :=
  interpolate "undefined" REACT_APP_API_URL +:+ path.

(** ** The handlers of the component *)

(** Lines 54-73.  Nothing before the [await] can throw, so the [try] is
    entered again with the outcome of the request. *)
Definition fetchCourses : M unit :=
  setIsLoading true ;;
  setError None ;;
  token <- getItem "token" ;;
  fetch (mkRequest GET (api "/api/courses")
           [("Authorization", "Bearer " +:+ interpolate "null" token)] None)
        InFetchCourses.

Definition fetchCourses_settled (o : Outcome) : M unit :=
  try_finally
    (try_catch
       (response <- await o ;;
        data <- json response ;;
        setCourses (if isArray data then data else VArr []))
       (fun e =>
          console "Error fetching courses:" e ;;
          setError (Some "Failed to load courses")))
    (setIsLoading false).

(** Lines 34-49, run once by the effect of lines 33-52.  There is no [try]:
    an exception rejects the promise nobody waits for. *)
Definition initializeSession : M unit :=
  token <- getItem "token" ;;
  match token with
  | Some token =>
      if negb (String.eqb token EmptyString) then
        userData <- lift (payload (VStr token)) ;;
        setUser userData ;;
        setCurrentView "dashboard" ;;
        fetch (mkRequest GET (api "/api/courses") [] None) InSessionInit
      else
        setCurrentView "login" ;;
        setIsLoading false
  | None =>
      setCurrentView "login" ;;
      setIsLoading false
  end.

Definition initializeSession_settled (o : Outcome) : M unit :=
  response <- await o ;;
  coursesData <- json response ;;
  setCourses (if isArray coursesData then coursesData else VArr []) ;;
  setIsLoading false.

(** Lines 81-101. *)
Definition handleLogin (credentials : JSValue) : M unit :=
  fetch (mkRequest POST (api "/api/login")
           [("Content-Type", "application/json")] (Some credentials))
        InLogin.

Definition handleLogin_settled (o : Outcome) : M unit :=
  try_catch
    (response <- await o ;;
     data <- json response ;;
     token <- lift (get data "token") ;;
     setItem "token" (toString token) ;;
     userData <- lift (payload token) ;;
     setUser userData ;;
     setCurrentView "dashboard")
    (fun e =>
       console "Login error:" e ;;
       alert "Login failed").

(** Lines 103-109. *)
Definition handleLogout : M unit :=
  removeItem "token" ;;
  setUser VNull ;;
  setCurrentView "login" ;;
  setCourses (VArr []) ;;
  setSelectedCourse VNull.

(** Lines 111-114. *)
Definition handleCourseSelect (course : JSValue) : M unit :=
  setSelectedCourse course ;;
  fun w =>
    setCurrentView (if is_string (get_opt (user w) "role") "teacher"
                    then "teacherCourse" else "studentCourse") w.

(** Lines 116-141. *)
Definition handleEnrollConfirm (courseId : JSValue) : M unit :=
  setEnrollingCourse true ;;
  token <- getItem "token" ;;
  fetch (mkRequest POST (api "/api/enroll")
           [("Content-Type", "application/json");
            ("Authorization", "Bearer " +:+ interpolate "null" token)]
           (Some (VObj [("course_id", courseId)])))
        InEnroll.

Definition handleEnrollConfirm_settled (o : Outcome) : M unit :=
  try_finally
    (try_catch
       (response <- await o ;;
        if ok (fst response) then
          alert "Successfully enrolled in the course!" ;;
          fetchCourses
        else
          alert "Failed to enroll in course")
       (fun e =>
          console "Failed to enroll:" e ;;
          alert "Failed to enroll in course"))
    (setEnrollingCourse false ;;
     setShowConfirmDialog VNull).

(** ** What is on screen (lines 143-267)

    Only the structure that decides which handler a click reaches is kept:
    which screen, which cards, which buttons and whether they are disabled.
    An exception here is one the component's own code raises while it
    builds the screen.  What React does afterwards with the children it is
    handed (it refuses an object given as title, description or teacher
    name) is not part of these functions. *)

Inductive EnrollControl : Set :=
| EnrollButton (disabled : bool)   (* lines 176-184 *)
| EnrolledBadge.                   (* lines 186-188 *)

Inductive Card : Type :=
| TeacherCard (course : JSValue)                          (* Manage Course *)
| StudentCard (course : JSValue) (enroll : EnrollControl). (* View Course *)

Inductive Listing : Type :=
| LoadingCourses
| CoursesError (msg : string)
| NoCourses
| CourseGrid (cards : list Card).

Inductive Screen : Type :=
| LoginForm
| RegisterForm
| TeacherCourseDetail (course : JSValue)   (* Back to Courses, StudentList *)
| StudentCourseDetail (course : JSValue)   (* Back to Courses, StudentGrades *)
| CourseBoard (createCourse : bool) (listing : Listing).

Definition isTeacher (w : World) : bool :=
  is_string (get_opt (user w) "role") "teacher".

(** One card of lines 150-192; [key={course.id}] throws on a course that is
    [null], and no other expression of the card can throw.  Whether React
    accepts [course.title], [course.description] and [course.teacher_name]
    as children is decided after the component has returned, not here. *)
Definition renderCard (w : World) (course : JSValue) : Exn + Card :=
  match get course "id" with
  | inl e => inl e
  | inr _ =>
      if isTeacher w then inr (TeacherCard course)
      else
        inr (StudentCard course
               (if negb (truthy (get_opt course "enrolled"))
                then EnrollButton (enrollingCourse w)
                else EnrolledBadge))
  end.

Fixpoint renderCards (w : World) (cs : list JSValue) : Exn + list Card :=
  match cs with
  | [] => inr []
  | c :: rest =>
      match renderCard w c, renderCards w rest with
      | inr card, inr cards => inr (card :: cards)
      | inl e, _ => inl e
      | _, inl e => inl e
      end
  end.

(** Lines 143-196.  [courses] holds an array in every state the component
    reaches; on any other value [.map] is not a function. *)
Definition renderCourseList (w : World) : Exn + Listing :=
  match courses w with
  | VArr [] => inr NoCourses
  | VArr cs =>
      match renderCards w cs with
      | inr cards => inr (CourseGrid cards)
      | inl e => inl e
      end
  | _ => inl TypeError
  end.

(** Lines 234-240. *)
Definition renderListing (w : World) : Exn + Listing :=
  if isLoading w then inr LoadingCourses
  else match error w with
       | Some msg =>
           if negb (String.eqb msg EmptyString) then inr (CoursesError msg)
           else renderCourseList w
       | None => renderCourseList w
       end.

(** Lines 198-244. *)
Definition renderDashboardContent (w : World) : Exn + Screen :=
  if truthy (selectedCourse w) then
    if isTeacher w then inr (TeacherCourseDetail (selectedCourse w))
    else inr (StudentCourseDetail (selectedCourse w))
  else
    match renderListing w with
    | inr listing => inr (CourseBoard (isTeacher w) listing)
    | inl e => inl e
    end.

(** Lines 246-265. *)
Definition renderContent (w : World) : Exn + Screen :=
  if String.eqb (currentView w) "login" then inr LoginForm
  else if String.eqb (currentView w) "register" then inr RegisterForm
  else renderDashboardContent w.

Definition cards_on_screen (w : World) : list Card :=
  match renderContent w with
  | inr (CourseBoard _ (CourseGrid cards)) => cards
  | _ => []
  end.

(** ** Events *)

(** What can happen to the mounted component: the user acts on an element
    that is on screen, a collaborator calls one of the callbacks it was
    given, or a request settles; an event whose element is not on screen
    does nothing.  [handleLogout] and [handleEnrollConfirm]
    are bound to no element of this file, so [LogoutRequested] and
    [EnrollConfirmed] may arrive at any time. *)
Inductive Event : Type :=
| LoginSubmitted (credentials : JSValue)   (* Login: onLogin *)
| SwitchedToRegister                       (* Login: onSwitchToRegister *)
| SwitchedToLogin                          (* Register: onSwitchToLogin *)
| RegisterCompleted                        (* Register: onRegister *)
| CourseOpened (i : nat)                   (* Manage/View Course of card i *)
| EnrollClicked (i : nat)                  (* Enroll of card i *)
| BackClicked                              (* Back to Courses *)
| CourseCreated                            (* CreateCourse: onCourseCreated *)
| LogoutRequested
| EnrollConfirmed (courseId : JSValue)
| Settled (i : nat) (o : Outcome).         (* the i-th waiting request *)

Definition settled (t : Task) (o : Outcome) : M unit :=
  match t with
  | InSessionInit => initializeSession_settled o
  | InFetchCourses => fetchCourses_settled o
  | InLogin => handleLogin_settled o
  | InEnroll => handleEnrollConfirm_settled o
  end.

Definition resume (i : nat) (o : Outcome) : M unit := fun w =>
  match pending w !! i with
  | Some t =>
      settled t o
        (mkWorld (currentView w) (user w) (courses w) (selectedCourse w)
                 (isLoading w) (error w) (showConfirmDialog w)
                 (enrollingCourse w) (localStorage w) (delete i (pending w))
                 (effects w) (userChanged w))
  | None => ret tt w
  end.

Definition course_of (c : Card) : JSValue :=
  match c with TeacherCard course | StudentCard course _ => course end.

(** The [onClick] of the Enroll button of a card (line 177); a disabled
    button, like a missing one, delivers no click. *)
Definition clickEnroll (c : Card) : M unit :=
  match c with
  | StudentCard course (EnrollButton false) =>
      id <- lift (get course "id") ;;
      setShowConfirmDialog id
  | _ => ret tt
  end.

Definition dispatch (e : Event) : M unit := fun w =>
  match e, renderContent w with
  | LoginSubmitted credentials, inr LoginForm => handleLogin credentials w
  | SwitchedToRegister, inr LoginForm => setCurrentView "register" w
  | SwitchedToLogin, inr RegisterForm => setCurrentView "login" w
  | RegisterCompleted, inr RegisterForm => setCurrentView "login" w
  | CourseOpened i, _ =>
      match cards_on_screen w !! i with
      | Some c => handleCourseSelect (course_of c) w
      | None => ret tt w
      end
  | EnrollClicked i, _ =>
      match cards_on_screen w !! i with
      | Some c => clickEnroll c w
      | None => ret tt w
      end
  | BackClicked, inr (TeacherCourseDetail _)
  | BackClicked, inr (StudentCourseDetail _) => setSelectedCourse VNull w
  | CourseCreated, inr (CourseBoard true _) => fetchCourses w
  | LogoutRequested, _ => handleLogout w
  | EnrollConfirmed courseId, _ => handleEnrollConfirm courseId w
  | Settled i o, _ => resume i o w
  | _, _ => ret tt w
  end.

(** The effect of lines 75-79, run after a render in which [user] changed. *)
Definition userEffect : M unit := fun w =>
  if userChanged w then
    let w' := mkWorld (currentView w) (user w) (courses w) (selectedCourse w)
                      (isLoading w) (error w) (showConfirmDialog w)
                      (enrollingCourse w) (localStorage w) (pending w)
                      (effects w) false in
    if truthy (user w) then fetchCourses w' else ret tt w'
  else ret tt w.

(** A handler has run to its end or to its [await]: an exception that
    escaped is an unhandled rejection, then React renders and runs the
    effect. *)
Definition commit (r : (Exn + unit) * World) : World :=
  match r with
  | (inr _, w) => snd (userEffect w)
  | (inl e, w) => snd (userEffect (snd (emit (UnhandledRejection e) w)))
  end.

Definition step (e : Event) (w : World) : World := commit (dispatch e w).

Definition run (es : list Event) (w : World) : World :=
  fold_left (fun w e => step e w) es w.

(** The initial values of lines 24-31 over a given storage. *)
Definition initial (stored : gmap string string) : World :=
  mkWorld "login" VNull (VArr []) VNull false None VNull false stored [] [] false.

(** Mounting runs [initializeSession] (line 51). *)
Definition mount (stored : gmap string string) : World :=
  commit (initializeSession (initial stored)).

(** ** Observations on a run *)

Fixpoint starts_with (p s : string) : bool :=
  match p, s with
  | EmptyString, _ => true
  | String a p', String b s' => Ascii.eqb a b && starts_with p' s'
  | String _ _, EmptyString => false
  end.

(** The catalog request ([GET]) carries exactly one header, an
    [Authorization] with a [Bearer] credential; anything else the
    component sends or shows passes. *)
Definition authorized (e : Effect) : bool :=
  match e with
  | Fetch r =>
      match method r, headers r with
      | GET, [(name, value)] =>
          String.eqb name "Authorization" && starts_with "Bearer " value
      | GET, _ => false
      | POST, _ => true
      end
  | _ => true
  end.

Definition is_enroll (t : Task) : bool :=
  match t with InEnroll => true | _ => false end.





(** ** Further observations *)

(** The five names the file gives to [currentView] (lines 24, 40, 46, 96,
    106, 113, 252, 258, 259). *)
Definition view_names : list string :=
  ["login"; "register"; "dashboard"; "teacherCourse"; "studentCourse"].

Definition is_refresh (t : Task) : bool :=
  match t with InFetchCourses => true | _ => false end.

(** The refreshes ([fetchCourses]) that have not settled yet. *)
Definition refreshes_outstanding (w : World) : nat :=
  length (List.filter is_refresh (pending w)).

(** The three requests the file builds (lines 42, 59-63, 84-88, 119-126). *)
Definition expected_request (r : Request) : Prop :=
  (method r = GET /\ url r = api "/api/courses" /\ request_body r = None
   /\ (headers r = []
       \/ exists credential,
            headers r = [("Authorization", "Bearer " +:+ credential)]))
  \/ (method r = POST /\ url r = api "/api/login"
      /\ headers r = [("Content-Type", "application/json")]
      /\ exists credentials, request_body r = Some credentials)
  \/ (method r = POST /\ url r = api "/api/enroll"
      /\ exists credential courseId,
           headers r = [("Content-Type", "application/json");
                        ("Authorization", "Bearer " +:+ credential)]
           /\ request_body r = Some (VObj [("course_id", courseId)])).

(** What the file sends and shows: those requests and three alerts (lines
    99, 129, 132, 136). *)
Definition expected (e : Effect) : Prop :=
  match e with
  | Fetch r => expected_request r
  | Alert msg =>
      msg = "Login failed" \/ msg = "Successfully enrolled in the course!"
      \/ msg = "Failed to enroll in course"
  | _ => True
  end.

Fixpoint dot_free (s : string) : bool :=
  match s with
  | EmptyString => true
  | String c rest => negb (Ascii.eqb c "."%char) && dot_free rest
  end.

End App.

(** ** A platform to run the component on

    Integers for numbers, and a [JSON.parse] that knows the texts used in the
    examples of this file and rejects every other text. *)

Definition demo_JSON_parse (text : string) : option (JSValue Z) :=
  if String.eqb text "{}" then Some (VObj [])
  else if String.eqb text "null" then Some VNull
  else if String.eqb text "[]" then Some (VArr [])
  else None.

Definition demo_platform : Platform := {|
  number := Z;
  Number_toString := fun z => pretty z;
  Number_toBoolean := fun z => negb (Z.eqb z 0);
  Number_sameValue := Z.eqb;
  JSON_parse := demo_JSON_parse;
  REACT_APP_API_URL := Some "http://localhost:5000"
|}.

Section Demo.

#[local] Existing Instance demo_platform.

(** A credential whose middle piece is the base64 of the empty object. *)
Definition anonymous_token : string := "header.e30.signature".

Definition alice : JSValue Z :=
  VObj [("username", VStr "alice"); ("password", VStr "x")].

Definition course7 : JSValue Z :=
  VObj [("id", VNum 7%Z); ("title", VStr "Logic")].

Definition error_body : JSValue Z :=
  VObj [("error", VStr "Invalid credentials")].

(** The session is restored, and the startup fetch and the refresh that
    follows it each bring one course. *)
Definition courses_arrive : list (@Event demo_platform) :=
  [Settled 0 (Responded 200 (Some (VArr [course7])));
   Settled 0 (Responded 200 (Some (VArr [course7])))].

Definition browsing : @World demo_platform :=
  @run demo_platform courses_arrive
       (@mount demo_platform {["token" := anonymous_token]}).



(** A teacher looking at the board. *)
Definition teaching : @World demo_platform :=
  mkWorld "dashboard" (VObj [("role", VStr "teacher")]) (VArr [course7]) VNull
          false None VNull false ∅ [] [] false.

(** A credential whose middle piece is the base64 of [null]. *)
Definition null_token : string := "header.bnVsbA.signature".

Definition token_body (token : string) : JSValue Z :=
  VObj [("token", VStr token)].

(** The login form has been submitted once from a fresh browser. *)
Definition logging_in : @World demo_platform :=
  @step demo_platform (LoginSubmitted alice) (@mount demo_platform ∅).

(** Two logins, both answered: two refreshes are outstanding. *)
Definition two_refreshes : @World demo_platform :=
  @run demo_platform
    [LoginSubmitted alice; LoginSubmitted alice;
     Settled 0 (Responded 200 (Some (token_body anonymous_token)));
     Settled 0 (Responded 200 (Some (token_body anonymous_token)))]
    (@mount demo_platform ∅).

(** A storage with a second key beside the credential. *)
Definition themed_storage : gmap string string :=
  {["theme" := "dark"; "token" := anonymous_token]}.

Definition one_course : list (JSValue (@number demo_platform)) := [course7].

Definition no_course : list (JSValue (@number demo_platform)) := [].

(** A catalog in which the backend put a [null] after a course. *)
Definition null_courses : list (JSValue (@number demo_platform)) :=
  [course7; VNull].

Definition null_catalog : @World demo_platform :=
  @run demo_platform
    [Settled 0 (Responded 200 (Some (VArr null_courses)));
     Settled 0 (Responded 200 (Some (VArr null_courses)))]
    (@mount demo_platform {["token" := anonymous_token]}).

(** The card of [course7] on a student's idle board. *)
Definition course7_card : @Card demo_platform :=
  StudentCard course7 (EnrollButton false).

End Demo.

(** * Properties *)

Section Properties.

Context {P : Platform}.

Abbreviation JSValue := (JSValue number).

(** Runs a handler symbolically: unfolds the monad, the setters and the
    handlers, and reads the fields of the resulting world. *)
Ltac exec :=
  cbv [fetchCourses fetchCourses_settled initializeSession
       initializeSession_settled handleLogin handleLogin_settled
       handleLogout handleCourseSelect handleEnrollConfirm
       handleEnrollConfirm_settled clickEnroll userEffect
       commit settled
       try_finally try_catch bind ret throw lift await json
       setCurrentView setUser setCourses setSelectedCourse setIsLoading
       setError setShowConfirmDialog setEnrollingCourse with_storage
       getItem setItem removeItem emit alert console fetch
       currentView user courses selectedCourse isLoading error
       showConfirmDialog enrollingCourse localStorage pending effects
       userChanged fst snd].

(** ** Catalog refresh *)

Lemma fetchCourses_world (w : World) :
  fetchCourses w =
    (inr tt,
     mkWorld (currentView w) (user w) (courses w) (selectedCourse w) true
             None (showConfirmDialog w) (enrollingCourse w) (localStorage w)
             (pending w ++ [InFetchCourses])
             (effects w ++
                [Fetch (mkRequest GET (api "/api/courses")
                          [("Authorization",
                            "Bearer " +:+
                              interpolate "null" (localStorage w !! "token"))]
                          None)])
             (userChanged w)).
Proof. reflexivity. Qed.

(** C2 (as amended): a refresh that settles always leaves [isLoading]
    false and lets no exception escape.  When the request is rejected or
    the body cannot be read, [error] becomes the fixed message and
    [courses] keeps its value.  When the body can be read, whatever the
    status of the response, [courses] becomes the body if it is a sequence
    and the empty sequence otherwise, and [error] is left as it was. *)
Theorem fetchCourses_settled_outcome (w : World) (o : Outcome) :
  let r := fetchCourses_settled o w in
  fst r = inr tt /\ isLoading (snd r) = false /\
  match o with
  | Rejected | Responded _ None =>
      error (snd r) = Some "Failed to load courses" /\
      courses (snd r) = courses w
  | Responded _ (Some data) =>
      courses (snd r) = (if isArray data then data else VArr []) /\
      error (snd r) = error w
  end.
Proof.
  destruct w, o as [|status [data|]]; exec; auto.
Qed.

(** C8: a courses response whose parsed body is not a sequence empties the
    catalog and raises nothing, in the startup fetch and in a refresh
    alike. *)
Theorem non_sequence_body_empties_courses
    (w : World) (status : Z) (data : JSValue) :
  isArray data = false ->
  initializeSession_settled (Responded status (Some data)) w
    = (inr tt, snd (initializeSession_settled (Responded status (Some data)) w))
  /\ courses (snd (initializeSession_settled (Responded status (Some data)) w))
     = VArr []
  /\ fetchCourses_settled (Responded status (Some data)) w
    = (inr tt, snd (fetchCourses_settled (Responded status (Some data)) w))
  /\ courses (snd (fetchCourses_settled (Responded status (Some data)) w))
     = VArr [].
Proof.
  intros Hdata. destruct w; exec. rewrite Hdata. auto.
Qed.

(** ** Enrollment *)

(** C4: however the enroll request settles, no exception escapes and the
    last thing the handler does is clear [enrollingCourse] and the
    pending-confirmation marker.  On a status outside 200-299 the failure
    alert is all that happens: nothing is fetched, nothing waits, and the
    catalog keeps its courses, loading flag and error. *)
Theorem handleEnrollConfirm_settled_outcome (w : World) (o : Outcome) :
  let r := handleEnrollConfirm_settled o w in
  fst r = inr tt /\
  enrollingCourse (snd r) = false /\ showConfirmDialog (snd r) = VNull /\
  match o with
  | Responded status _ =>
      if ok status then
        effects (snd r) =
          effects (snd (fetchCourses
                          (snd (alert "Successfully enrolled in the course!" w))))
        /\ pending (snd r) = pending w ++ [InFetchCourses]
      else
        effects (snd r) = effects w ++ [Alert "Failed to enroll in course"]
        /\ pending (snd r) = pending w
        /\ courses (snd r) = courses w
        /\ isLoading (snd r) = isLoading w
        /\ error (snd r) = error w
  | Rejected =>
      effects (snd r) =
        effects w ++ [Console "Failed to enroll:" NetworkFailure;
                      Alert "Failed to enroll in course"]
      /\ pending (snd r) = pending w
      /\ courses (snd r) = courses w
  end.
Proof.
  destruct w, o as [|status body]; exec.
  - rewrite <- app_assoc. auto 10.
  - destruct (ok status); exec; auto 10.
Qed.

(** ** Logout *)

(** C5: from any state, logout leaves no Identity, no stored credential,
    the login view, no selected course and an empty catalog, and contacts
    nobody: nothing is sent or shown and no request is added to those
    waiting. *)
Theorem logout_is_local (w : World) :
  let w' := step LogoutRequested w in
  user w' = VNull /\
  localStorage w' = delete "token" (localStorage w) /\
  localStorage w' !! "token" = None /\
  currentView w' = "login" /\
  selectedCourse w' = VNull /\
  courses w' = VArr [] /\
  effects w' = effects w /\
  pending w' = pending w /\
  renderContent w' = inr LoginForm.
Proof.
  unfold step, dispatch.
  assert (Hrun : commit (handleLogout w) =
            mkWorld "login" VNull (VArr []) VNull (isLoading w) (error w)
                    (showConfirmDialog w) (enrollingCourse w)
                    (delete "token" (localStorage w)) (pending w)
                    (effects w) false).
  { destruct w; exec. destruct (_ || _); reflexivity. }
  destruct (renderContent w) as [e|[]]; rewrite Hrun; cbn [user localStorage
    currentView selectedCourse courses effects pending];
    rewrite lookup_delete_eq; auto 10.
Qed.

(** ** Login *)


(** ** Session restoration *)

(** C6: with no credential in storage (or an empty one) restoration ends
    normally and the component stays as it was created, without Identity
    and in the login view.  With a credential whose middle piece does not
    decode, [initializeSession] throws: it changes nothing, there is no
    handler and no error value, and the rejection reaches nobody.  The
    credential [header.!!!.signature] is one of these on every platform. *)
Theorem initializeSession_outcome (stored : gmap string string) :
  user (initial stored) = VNull /\ currentView (initial stored) = "login" /\
  match stored !! "token" with
  | None =>
      initializeSession (initial stored) = (inr tt, initial stored)
      /\ mount stored = initial stored
  | Some token =>
      if String.eqb token EmptyString then
        initializeSession (initial stored) = (inr tt, initial stored)
      else
        match payload (VStr token) with
        | inl e =>
            initializeSession (initial stored) = (inl e, initial stored)
            /\ user (mount stored) = VNull
            /\ currentView (mount stored) = "login"
            /\ effects (mount stored) = [UnhandledRejection e]
        | inr userData =>
            fst (initializeSession (initial stored)) = inr tt
            /\ user (mount stored) = userData
            /\ currentView (mount stored) = "dashboard"
        end
  end
  /\ initializeSession (initial {["token" := "header.!!!.signature"]})
     = (inl InvalidCharacterError,
        initial {["token" := "header.!!!.signature"]}).
Proof.
  split; [reflexivity|]. split; [reflexivity|]. split.
  - unfold mount, initial. exec.
    destruct (stored !! "token") as [token|]; [|auto].
    destruct (String.eqb token EmptyString); [reflexivity|]. cbn [negb].
    destruct (payload (VStr token)) as [e|userData]; [auto|].
    exec. destruct (negb (sameValue VNull userData)); exec;
      [destruct (truthy userData)|]; auto.
  - unfold initial. exec. rewrite lookup_singleton_eq. reflexivity.
Qed.

(** ** Course detail and back *)


Lemma handleCourseSelect_outcome (w : World) (course : JSValue) :
  let w' := snd (handleCourseSelect course w) in
  selectedCourse w' = course
  /\ currentView w' = (if isTeacher w then "teacherCourse" else "studentCourse").
Proof. destruct w; exec. split; reflexivity. Qed.


(** ** Invariants of a run *)

(** Splits on whatever the handler under execution branches on. *)
Ltac branches :=
  repeat (match goal with
          | |- context [match ?x with _ => _ end] =>
              lazymatch x with
              | context [match _ with _ => _ end] => fail
              | _ => destruct x eqn:?
              end
          end; exec).

Lemma run_snoc (es : list Event) (e : Event) (w : World) :
  run (es ++ [e]) w = step e (run es w).
Proof. unfold run. rewrite fold_left_app. reflexivity. Qed.

Lemma run_invariant (I : World -> Prop) (allowed : Event -> bool) :
  (forall e w, allowed e = true -> I w -> I (step e w)) ->
  forall es w, forallb allowed es = true -> I w -> I (run es w).
Proof.
  intros Hstep es. induction es as [|e es IH] using rev_ind; intros w Hes Hw.
  - exact Hw.
  - rewrite run_snoc. rewrite forallb_app in Hes.
    apply andb_prop in Hes as [Hes He]. cbn in He.
    apply andb_prop in He as [He _]. auto.
Qed.

Lemma commit_courses (r : Exn + unit) (w : World) :
  courses (commit (r, w)) = courses w.
Proof. destruct w, r; exec; branches; reflexivity. Qed.

Lemma dispatch_courses_array (e : Event) (w : World) :
  isArray (courses w) = true ->
  isArray (courses (snd (dispatch e w))) = true.
Proof.
  intros Hw. destruct e; unfold dispatch, resume;
    destruct (renderContent w) as [?|[]];
    try destruct (cards_on_screen w !! i) as [[|? [[]|]]|];
    try destruct (pending w !! i) as [[]|];
    try destruct o as [|? [?|]];
    destruct w; exec; cbn [ courses ] in Hw; branches;
    try exact Hw; try reflexivity; try (cbn; assumption).
Qed.

Lemma step_courses_array (e : Event) (w : World) :
  isArray (courses w) = true -> isArray (courses (step e w)) = true.
Proof.
  intros Hw. unfold step.
  destruct (dispatch e w) as [r w'] eqn:Hd.
  rewrite commit_courses.
  change w' with (snd (r, w')). rewrite <- Hd.
  apply dispatch_courses_array, Hw.
Qed.

Lemma mount_courses_array (stored : gmap string string) :
  isArray (courses (mount stored)) = true.
Proof.
  unfold mount. destruct (initializeSession (initial stored)) as [r w'] eqn:Hi.
  rewrite commit_courses. change w' with (snd (r, w')). rewrite <- Hi.
  unfold initial. exec. branches; reflexivity.
Qed.

(** C10: after mounting and after any sequence of events (user actions,
    callbacks, logout, enrollment confirmations, responses of any shape
    arriving in any order) [courses] holds a sequence. *)
Theorem courses_always_array (stored : gmap string string) (es : list Event) :
  isArray (courses (run es (mount stored))) = true.
Proof.
  apply (run_invariant (fun w => isArray (courses w) = true) (fun _ => true)).
  - intros e w _. apply step_courses_array.
  - apply forallb_forall. reflexivity.
  - apply mount_courses_array.
Qed.

(** *** What is sent *)

Ltac appended :=
  first
    [ exists []; split; [symmetry; apply app_nil_r | reflexivity]
    | rewrite <- ?app_assoc; eexists; split; [reflexivity | reflexivity] ].

Lemma commit_effects (r : Exn + unit) (w : World) :
  exists new, effects (commit (r, w)) = effects w ++ new
              /\ forallb authorized new = true.
Proof. destruct w, r; exec; branches; appended. Qed.

Lemma dispatch_effects (e : Event) (w : World) :
  exists new, effects (snd (dispatch e w)) = effects w ++ new
              /\ forallb authorized new = true.
Proof.
  destruct e; unfold dispatch, resume;
    destruct (renderContent w) as [?|[]];
    try destruct (cards_on_screen w !! i) as [[|? [[]|]]|];
    try destruct (pending w !! i) as [[]|];
    try destruct o as [|? [?|]];
    destruct w; exec; branches; appended.
Qed.

Lemma step_effects (e : Event) (w : World) :
  exists new, effects (step e w) = effects w ++ new
              /\ forallb authorized new = true.
Proof.
  unfold step. destruct (dispatch_effects e w) as (new1 & H1 & Ha1).
  destruct (dispatch e w) as [r w']. cbn [snd] in H1.
  destruct (commit_effects r w') as (new2 & H2 & Ha2).
  exists (new1 ++ new2). rewrite H2, H1, app_assoc. split; [reflexivity|].
  rewrite forallb_app, Ha1, Ha2. reflexivity.
Qed.

Lemma authorized_after_first (l new : list Effect) :
  forallb authorized (tail l) = true ->
  forallb authorized new = true ->
  forallb authorized (tail (l ++ new)) = true.
Proof.
  destruct l as [|first l]; cbn [tail app].
  - intros _. destruct new as [|e new]; [reflexivity|].
    cbn. intros H. apply andb_prop in H as [_ H]. exact H.
  - intros Hl Hnew. rewrite forallb_app, Hl, Hnew. reflexivity.
Qed.

Lemma mount_effects (stored : gmap string string) :
  forallb authorized (tail (effects (mount stored))) = true.
Proof. unfold mount, initial. exec. branches; reflexivity. Qed.

(** C7: when restoration succeeds, the first thing the component sends is
    the GET for the course list with no header at all.  A refresh sends
    that GET with one header, [Authorization: Bearer] followed by the
    credential in storage at that moment.  And in every run, every GET
    after the first thing sent or shown carries such a header: the startup
    request is the only one without. *)
Theorem first_fetch_unauthenticated
    (stored : gmap string string) (token : string) (userData : JSValue)
    (es : list Event) (w : World) :
  stored !! "token" = Some token ->
  token <> EmptyString ->
  payload (VStr token) = inr userData ->
  head (effects (run es (mount stored)))
    = Some (Fetch (mkRequest GET (api "/api/courses") [] None))
  /\ forallb authorized (tail (effects (run es (mount stored)))) = true
  /\ effects (snd (fetchCourses w)) =
       effects w ++
         [Fetch (mkRequest GET (api "/api/courses")
                   [("Authorization",
                     "Bearer " +:+
                       interpolate "null" (localStorage w !! "token"))]
                   None)].
Proof.
  intros Hstored Htoken Hpayload. split; [|split].
  - apply (run_invariant
             (fun w => head (effects w)
                       = Some (Fetch (mkRequest GET (api "/api/courses") [] None)))
             (fun _ => true)).
    + intros e w0 _ Hw0. destruct (step_effects e w0) as (new & -> & _).
      destruct (effects w0); [discriminate | exact Hw0].
    + apply forallb_forall. reflexivity.
    + unfold mount, initial. exec. rewrite Hstored.
      apply String.eqb_neq in Htoken. rewrite Htoken. cbn [negb].
      rewrite Hpayload. exec. branches; reflexivity.
  - apply (run_invariant
             (fun w => forallb authorized (tail (effects w)) = true)
             (fun _ => true)).
    + intros e w0 _ Hw0. destruct (step_effects e w0) as (new & -> & Hnew).
      apply authorized_after_first; assumption.
    + apply forallb_forall. reflexivity.
    + apply mount_effects.
  - destruct w; reflexivity.
Qed.

(** *** Enrollments in flight *)



Lemma filter_delete_length (f : Task -> bool) (l : list Task) :
  forall (i : nat) (t : Task),
    l !! i = Some t ->
    length (List.filter f l)
    = (length (List.filter f (delete i l)) + (if f t then 1 else 0))%nat.
Proof.
  induction l as [|a l IH]; intros i t Hi; [destruct i; discriminate|].
  destruct i as [|i]; cbn in Hi.
  - inversion Hi; subst. cbn. destruct (f t); cbn; lia.
  - change (delete (S i) (a :: l)) with (a :: delete i l).
    cbn [List.filter]. specialize (IH i t Hi).
    destruct (f a); cbn [length]; lia.
Qed.








(** ** More invariants of a run *)

Lemma run_always (I : World -> Prop) :
  (forall e w, I w -> I (step e w)) ->
  forall es w, I w -> I (run es w).
Proof.
  intros Hstep es w Hw.
  apply (run_invariant I (fun _ => true)); auto.
  apply forallb_forall. reflexivity.
Qed.

Lemma step_from_dispatch (I : World -> Prop) (e : Event) (w : World) :
  (forall r w', I w' -> I (commit (r, w'))) ->
  I (snd (dispatch e w)) -> I (step e w).
Proof.
  intros Hcommit Hd. unfold step. destruct (dispatch e w) as [r w'].
  apply Hcommit, Hd.
Qed.

(** Case analysis on an event and on everything its handler branches on. *)
Ltac cases e w :=
  destruct e; unfold dispatch, resume;
  destruct (renderContent w) as [?|[]];
  try match goal with
    | |- context [cards_on_screen w !! ?i] =>
        destruct (cards_on_screen w !! i) as [[|? [[]|]]|]
    end;
  try match goal with
    | |- context [pending w !! ?i] => destruct (pending w !! i) as [[]|]
    end;
  try match goal with
    | o : Outcome |- _ => destruct o as [|? [?|]]
    end;
  destruct w; exec; branches.

(** The same for the events of the user, once the event is known. *)
Ltac on_screen w :=
  destruct (renderContent w) as [?|[]];
  try match goal with
    | |- context [cards_on_screen w !! ?i] =>
        destruct (cards_on_screen w !! i) as [[|? [[]|]]|]
    end;
  destruct w; exec; branches.

(** *** The view names *)

(** X1: in every state of every run [currentView] is one of the five names
    login, register, dashboard, teacherCourse and studentCourse. *)
Theorem currentView_known (stored : gmap string string) (es : list Event) :
  In (currentView (run es (mount stored))) view_names.
Proof.
  apply (run_always (fun w => In (currentView w) view_names)).
  - intros e w Hw. apply step_from_dispatch.
    + intros r [] H'. destruct r; exec; branches; exact H'.
    + cases e w; cbn [currentView] in Hw;
        first [exact Hw | cbn; tauto].
  - unfold mount, initial. exec. branches; cbn; tauto.
Qed.

(** *** The error message *)

(** X2: in every state of every run [error] is null or the one message
    'Failed to load courses'; nothing the backend sends ends up in it. *)
Theorem error_is_fixed_message (stored : gmap string string) (es : list Event) :
  error (run es (mount stored)) = None
  \/ error (run es (mount stored)) = Some "Failed to load courses".
Proof.
  apply (run_always
           (fun w => error w = None \/ error w = Some "Failed to load courses")).
  - intros e w Hw. apply step_from_dispatch.
    + intros r [] H'. destruct r; exec; branches; first [exact H' | auto].
    + cases e w; cbn [error] in Hw; first [exact Hw | auto].
  - unfold mount, initial. exec. branches; auto.
Qed.

(** *** Durable storage *)

Lemma commit_storage (r : Exn + unit) (w : World) :
  localStorage (commit (r, w)) = localStorage w.
Proof. destruct w, r; exec; branches; reflexivity. Qed.

(** X3: the component writes to durable storage in two places only, when
    a login response settles and on logout; every other event leaves the
    whole storage as it was.  And whatever happens, no key other than
    [token] is ever created, changed or removed. *)
Theorem storage_only_token
    (stored : gmap string string) (es : list Event) (e : Event) (w : World)
    (k : string) :
  k <> "token" ->
  localStorage (run es (mount stored)) !! k = stored !! k
  /\ match e with
     | LogoutRequested => localStorage (step e w) = delete "token" (localStorage w)
     | Settled i _ =>
         pending w !! i = Some InLogin
         \/ localStorage (step e w) = localStorage w
     | _ => localStorage (step e w) = localStorage w
     end.
Proof.
  intros Hk. split.
  - apply (run_always (fun w => localStorage w !! k = stored !! k)).
    + intros e0 w0 Hw. unfold step. destruct (dispatch e0 w0) as [r w'] eqn:Hd.
      rewrite commit_storage. change w' with (snd (r, w')). rewrite <- Hd.
      clear Hd. cases e0 w0; cbn [localStorage] in Hw;
        rewrite ?lookup_insert_ne, ?lookup_delete_ne by congruence; exact Hw.
    + unfold mount. destruct (initializeSession (initial stored)) as [r w'] eqn:Hi.
      rewrite commit_storage. change w' with (snd (r, w')). rewrite <- Hi.
      unfold initial. exec. branches; reflexivity.
  - unfold step. destruct (dispatch e w) as [r w'] eqn:Hd.
    rewrite commit_storage. change w' with (snd (r, w')). rewrite <- Hd.
    clear Hd. destruct e; unfold dispatch, resume.
    11: { destruct (pending w !! i) as [[]|]; [| |left; reflexivity| |];
            right; destruct (renderContent w), o as [|? [?|]];
            destruct w; exec; branches; reflexivity. }
    all: on_screen w; reflexivity.
Qed.

(** *** The loading flag *)

Lemma commit_loading (r : Exn + unit) (w : World) :
  (isLoading w = true -> (0 < refreshes_outstanding w)%nat) ->
  isLoading (commit (r, w)) = true ->
  (0 < refreshes_outstanding (commit (r, w)))%nat.
Proof.
  unfold refreshes_outstanding. destruct w, r; exec; branches;
    cbn [isLoading pending]; rewrite ?List.filter_app, ?length_app;
    cbn [List.filter is_refresh length]; intros; try lia; auto.
Qed.

(** X4: the loading flag is set only while a refresh is outstanding: in
    every state of every run, if [isLoading] is true then at least one
    request of [fetchCourses] has not settled yet, and its settling will
    clear the flag. *)
Theorem loading_has_refresh_outstanding
    (stored : gmap string string) (es : list Event) :
  isLoading (run es (mount stored)) = true ->
  (0 < refreshes_outstanding (run es (mount stored)))%nat.
Proof.
  apply (run_always
           (fun w => isLoading w = true -> (0 < refreshes_outstanding w)%nat)).
  - intros e w Hw. apply step_from_dispatch; [apply commit_loading|].
    unfold refreshes_outstanding in *.
    destruct e; unfold dispatch, resume.
    11: { destruct (pending w !! i) as [t|] eqn:Ht.
          - pose proof (filter_delete_length is_refresh _ _ _ Ht) as Hdel.
            destruct (renderContent w), t, o as [|? [?|]];
              destruct w; exec; branches;
              cbn [isLoading pending is_refresh] in *;
              rewrite ?List.filter_app, ?length_app;
              cbn [List.filter is_refresh length];
              intros; try discriminate; try lia;
              match goal with H : _ -> (0 < _)%nat |- _ =>
                specialize (H ltac:(assumption)); lia end.
          - destruct (renderContent w); destruct w; exec; exact Hw. }
    all: on_screen w; cbn [isLoading pending] in *;
      rewrite ?List.filter_app, ?length_app;
      cbn [List.filter is_refresh is_enroll length];
      intros; try lia; auto;
      match goal with H : _ -> (0 < _)%nat |- _ =>
        specialize (H ltac:(assumption)); lia end.
  - unfold mount, initial, refreshes_outstanding. exec.
    branches; cbn; intros; try discriminate; lia.
Qed.

(** *** What is sent and shown *)

Ltac one_expected :=
  unfold expected, expected_request;
  cbn [method url headers request_body];
  first
    [ exact I
    | left; reflexivity
    | right; left; reflexivity
    | right; right; reflexivity
    | left; split; [reflexivity | split; [reflexivity | split; [reflexivity|]]];
      first [left; reflexivity | right; eexists; reflexivity]
    | right; left;
      split; [reflexivity | split; [reflexivity | split; [reflexivity|]]];
      eexists; reflexivity
    | right; right; split; [reflexivity | split; [reflexivity|]];
      do 2 eexists; split; reflexivity ].

Ltac all_expected :=
  cbn [app]; repeat (constructor; [one_expected|]); constructor.

Ltac expected_new :=
  first
    [ exists []; split; [symmetry; apply app_nil_r | constructor]
    | rewrite <- ?app_assoc; eexists; split; [reflexivity|]; all_expected ].

Lemma commit_expected (r : Exn + unit) (w : World) :
  exists new, effects (commit (r, w)) = effects w ++ new /\ Forall expected new.
Proof. destruct w, r; exec; branches; expected_new. Qed.

Lemma dispatch_expected (e : Event) (w : World) :
  exists new, effects (snd (dispatch e w)) = effects w ++ new
              /\ Forall expected new.
Proof. cases e w; expected_new. Qed.

(** X5: everything the component ever sends is one of three requests:
    the GET of the course list (with no header, or with a Bearer
    Authorization alone), the POST of the credentials to the login
    endpoint (with a content type and no Authorization), and the POST of
    a course id to the enroll endpoint (with a content type and a Bearer
    Authorization); and every alert it shows is one of three fixed
    messages. *)
Theorem only_expected_effects (stored : gmap string string) (es : list Event) :
  Forall expected (effects (run es (mount stored))).
Proof.
  apply (run_always (fun w => Forall expected (effects w))).
  - intros e w Hw. unfold step.
    destruct (dispatch_expected e w) as (new1 & H1 & He1).
    destruct (dispatch e w) as [r w']. cbn [snd] in H1.
    destruct (commit_expected r w') as (new2 & H2 & He2).
    rewrite H2, H1. repeat apply Forall_app_2; assumption.
  - unfold mount.
    destruct (commit_expected (fst (initializeSession (initial stored)))
                (snd (initializeSession (initial stored))))
      as (new & Hnew & He).
    rewrite <- surjective_pairing in Hnew. rewrite Hnew.
    apply Forall_app_2; [|exact He].
    unfold initial. exec. branches; cbn [effects]; all_expected.
Qed.

(** ** Login, continued *)



(** X7: a token whose payload is a falsy value ([null], [false], zero, the
    empty string) is accepted like any other: the token is stored, the
    view moves to the dashboard with that value as Identity, and no
    refresh is sent. *)
Theorem login_with_falsy_payload
    (w : World) (i : nat) (status : Z) (data token userData : JSValue) :
  pending w !! i = Some InLogin ->
  get data "token" = inr token ->
  payload token = inr userData ->
  truthy userData = false ->
  let w' := step (Settled i (Responded status (Some data))) w in
  user w' = userData
  /\ currentView w' = "dashboard"
  /\ localStorage w' = <["token" := toString token]> (localStorage w)
  /\ isTeacher w' = false
  /\ pending w' = delete i (pending w)
  /\ effects w' = effects w.
Proof.
  intros Hi Htoken Hpayload Hfalsy. unfold step, dispatch, resume. rewrite Hi.
  assert (Hrole : is_string (get_opt userData "role") "teacher" = false)
    by (destruct userData; try discriminate; reflexivity).
  destruct (renderContent w); destruct w; exec;
    rewrite Htoken; exec; rewrite Hpayload; exec;
    destruct (_ || _); exec; rewrite ?Hfalsy; unfold isTeacher;
    cbn [user]; rewrite Hrole; repeat split.
Qed.

(** ** The token *)

Lemma split_dot_dot_free (s : string) :
  dot_free s = true -> split_dot s = [s].
Proof.
  induction s as [|c s IH]; cbn [split_dot dot_free]; [reflexivity|].
  intros H. apply andb_prop in H as [Hc Hs].
  apply negb_true_iff in Hc. rewrite Hc, (IH Hs). reflexivity.
Qed.

Lemma split_dot_piece (h rest : string) :
  dot_free h = true ->
  split_dot (h +:+ "." +:+ rest) = h :: split_dot rest.
Proof.
  induction h as [|c h IH]; [reflexivity|].
  cbn [dot_free]. intros H. apply andb_prop in H as [Hc Hh].
  apply negb_true_iff in Hc.
  change (String c h +:+ "." +:+ rest) with (String c (h +:+ "." +:+ rest)).
  cbn [split_dot]. rewrite Hc, (IH Hh). reflexivity.
Qed.

(** X8: only the middle piece of a token counts.  Whatever stands before
    the first dot and after the second, the Identity decoded (or the
    exception thrown) is that of the middle piece: nothing checks the
    header or the signature. *)
Theorem payload_reads_middle_piece (h h' m sig sig' : string) :
  dot_free h = true -> dot_free h' = true -> dot_free m = true ->
  payload (VStr (h +:+ "." +:+ m +:+ "." +:+ sig))
  = payload (VStr (h' +:+ "." +:+ m +:+ "." +:+ sig'))
  /\ payload (VStr (h +:+ "." +:+ m +:+ "." +:+ sig))
     = payload (VStr (h' +:+ "." +:+ m))
  /\ payload (VStr (h +:+ "." +:+ m))
     = match Base64.atob m with
       | None => inl InvalidCharacterError
       | Some text =>
           match JSON_parse text with
           | Some v => inr v
           | None => inl SyntaxError
           end
       end.
Proof.
  intros Hh Hh' Hm. unfold payload, split, atob.
  rewrite !split_dot_piece by assumption.
  rewrite (split_dot_dot_free m Hm). cbn [lookup list_lookup].
  repeat split; destruct (Base64.atob m); reflexivity.
Qed.

(** X9: a stored credential without any dot cannot be restored: the piece
    at index 1 is missing, [atob] is given [undefined], and
    [initializeSession] throws [InvalidCharacterError] without changing
    anything. *)
Theorem token_without_dot_throws (stored : gmap string string) (token : string) :
  stored !! "token" = Some token ->
  token <> EmptyString ->
  dot_free token = true ->
  payload (VStr token) = inl InvalidCharacterError
  /\ initializeSession (initial stored)
     = (inl InvalidCharacterError, initial stored).
Proof.
  intros Hstored Hne Hfree.
  assert (Hp : payload (VStr token) = inl InvalidCharacterError).
  { unfold payload, split, atob. rewrite (split_dot_dot_free token Hfree).
    reflexivity. }
  split; [exact Hp|].
  unfold initial. exec. rewrite Hstored.
  apply String.eqb_neq in Hne. rewrite Hne. cbn [negb]. rewrite Hp.
  reflexivity.
Qed.

(** ** The startup fetch *)

(** X10: the startup fetch fails silently.  When its request is rejected
    or its body cannot be read, the continuation of [initializeSession]
    throws and changes nothing: [error] is not set and [isLoading] is not
    touched; the exception is caught by nobody.  When the body
    can be read, the catalog is replaced and [isLoading] cleared, and
    [error] is left as it was. *)
Theorem startup_fetch_outcome (w : World) (o : Outcome) :
  let r := initializeSession_settled o w in
  match o with
  | Rejected => r = (inl NetworkFailure, w)
  | Responded _ None => r = (inl SyntaxError, w)
  | Responded _ (Some coursesData) =>
      fst r = inr tt
      /\ courses (snd r) = (if isArray coursesData then coursesData else VArr [])
      /\ isLoading (snd r) = false
      /\ error (snd r) = error w
      /\ effects (snd r) = effects w
  end.
Proof.
  destruct w, o as [|status [data|]]; exec; repeat split.
Qed.

(** ** The course board *)

Lemma renderCards_courses (w : World) (cs : list JSValue) :
  forall cards, renderCards w cs = inr cards ->
                map course_of cards = cs
                /\ forall card, In card cards ->
                     match card with
                     | TeacherCard _ => isTeacher w = true
                     | StudentCard _ _ => isTeacher w = false
                     end.
Proof.
  induction cs as [|c cs IH]; intros cards Hcards.
  - inversion Hcards. split; [reflexivity | intros card []].
  - cbn [renderCards] in Hcards.
    destruct (renderCard w c) as [e|card0] eqn:Hcard; [discriminate|].
    destruct (renderCards w cs) as [e|rest]; [discriminate|].
    inversion Hcards; subst. destruct (IH rest eq_refl) as [Hmap Hkind].
    assert (H0 : course_of card0 = c
                 /\ match card0 with
                    | TeacherCard _ => isTeacher w = true
                    | StudentCard _ _ => isTeacher w = false
                    end).
    { unfold renderCard in Hcard. destruct (get c "id"); [discriminate|].
      destruct (isTeacher w); inversion Hcard; split; reflexivity. }
    destruct H0 as [Hc Hk]. split.
    + cbn [map]. rewrite Hc, Hmap. reflexivity.
    + intros card [<-|Hin]; [exact Hk | apply Hkind, Hin].
Qed.

Lemma renderCards_throws (w : World) (cs : list JSValue) :
  match renderCards w cs with
  | inl e => e = TypeError /\ existsb nullish cs = true
  | inr _ => existsb nullish cs = false
  end.
Proof.
  induction cs as [|c cs IH]; [reflexivity|].
  cbn [renderCards existsb]. unfold renderCard at 1.
  destruct c; cbn [get nullish orb];
    try (destruct (renderCards w cs); [tauto|]; split; reflexivity);
    destruct (isTeacher w), (renderCards w cs); tauto.
Qed.

Lemma cards_on_screen_listing (w : World) (i : nat) (card : Card) :
  cards_on_screen w !! i = Some card ->
  exists cs cards,
    courses w = VArr cs /\ renderCards w cs = inr cards
    /\ cards_on_screen w = cards
    /\ String.eqb (currentView w) "login" = false
    /\ String.eqb (currentView w) "register" = false
    /\ truthy (selectedCourse w) = false
    /\ isLoading w = false.
Proof.
  unfold cards_on_screen, renderContent, renderDashboardContent,
    renderListing, renderCourseList.
  intros Hi.
  repeat match type of Hi with
         | context [match ?x with _ => _ end] =>
             lazymatch x with
             | context [match _ with _ => _ end] => fail
             | _ => destruct x eqn:?
             end
         end; try (destruct i; discriminate).
  all: repeat match goal with
         | H : inr _ = inr _ |- _ => inversion H; clear H; subst
         end.
  all: do 2 eexists; repeat split; eauto.
Qed.

(** X11: the board shows one card per course, in the order of the
    backend's response, and each card opens the very course it was made
    from. *)
Theorem cards_follow_courses (w : World) (cs : list JSValue) (i : nat) (card : Card) :
  courses w = VArr cs ->
  cards_on_screen w !! i = Some card ->
  map course_of (cards_on_screen w) = cs
  /\ cs !! i = Some (course_of card)
  /\ length (cards_on_screen w) = length cs.
Proof.
  intros Hcs Hi.
  destruct (cards_on_screen_listing w i card Hi)
    as (cs' & cards & Hcs' & Hcards & Hscreen & _).
  rewrite Hcs in Hcs'. inversion Hcs'; subst cs'.
  destruct (renderCards_courses w cs cards Hcards) as [Hmap _].
  rewrite Hscreen in *. split; [exact Hmap|]. split.
  - rewrite <- Hmap. rewrite list_lookup_fmap, Hi. reflexivity.
  - rewrite <- Hmap. rewrite length_map. reflexivity.
Qed.

(** X12: one course that is [null] (or undefined) in the catalog takes the
    board down: building the course list throws a [TypeError] at
    [key={course.id}], whatever the other entries are, and so does
    building the screen whenever the list is what the dashboard would
    show. *)
Theorem course_list_throws_on_null (w : World) (cs : list JSValue) :
  courses w = VArr cs ->
  existsb nullish cs = true ->
  renderCourseList w = inl TypeError
  /\ (String.eqb (currentView w) "login" = false ->
      String.eqb (currentView w) "register" = false ->
      truthy (selectedCourse w) = false ->
      isLoading w = false ->
      error w = None ->
      renderContent w = inl TypeError).
Proof.
  intros Hcs Hnull.
  assert (Hlist : renderCourseList w = inl TypeError).
  { unfold renderCourseList. rewrite Hcs.
    destruct cs as [|c cs]; [discriminate|].
    pose proof (renderCards_throws w (c :: cs)) as Hthrows.
    destruct (renderCards w (c :: cs)) as [e|cards].
    - destruct Hthrows as [-> _]. reflexivity.
    - congruence. }
  split; [exact Hlist|].
  intros Hlogin Hreg Hsel Hload Herr.
  unfold renderContent, renderDashboardContent, renderListing.
  rewrite Hlogin, Hreg, Hsel, Hload, Herr, Hlist. reflexivity.
Qed.

(** X13: a teacher cannot start an enrollment: for the role teacher every
    card on screen is a Manage Course card without an Enroll button, so
    no press of Enroll reaches a handler: nothing changes and nothing is
    sent. *)
Theorem teacher_cannot_enroll (w : World) (i : nat) :
  isTeacher w = true ->
  (forall card, cards_on_screen w !! i = Some card ->
                exists course, card = TeacherCard course)
  /\ dispatch (EnrollClicked i) w = (inr tt, w).
Proof.
  intros Hteacher.
  assert (Hcard : forall card, cards_on_screen w !! i = Some card ->
                               exists course, card = TeacherCard course).
  { intros card Hi.
    destruct (cards_on_screen_listing w i card Hi)
      as (cs & cards & _ & Hcards & Hscreen & _).
    destruct (renderCards_courses w cs cards Hcards) as [_ Hkind].
    rewrite Hscreen in Hi. apply list_elem_of_lookup_2, list_elem_of_In in Hi.
    specialize (Hkind card Hi). destruct card; [eauto | congruence]. }
  split; [exact Hcard|].
  unfold dispatch.
  destruct (cards_on_screen w !! i) as [card|] eqn:Hi.
  - destruct (Hcard card eq_refl) as [course ->].
    destruct (renderContent w); reflexivity.
  - destruct (renderContent w); reflexivity.
Qed.

(** X14: opening the card of a course that is an object (any truthy
    value) selects that course and shows its detail screen: the
    teacher's, from a Manage Course card, exactly when the role is
    teacher, and the student's otherwise; [currentView] is named
    accordingly. *)
Theorem open_course_shows_detail (w : World) (i : nat) (card : Card) :
  cards_on_screen w !! i = Some card ->
  truthy (course_of card) = true ->
  let w' := snd (dispatch (CourseOpened i) w) in
  selectedCourse w' = course_of card
  /\ match card with
     | TeacherCard course =>
         currentView w' = "teacherCourse"
         /\ renderContent w' = inr (TeacherCourseDetail course)
     | StudentCard course _ =>
         currentView w' = "studentCourse"
         /\ renderContent w' = inr (StudentCourseDetail course)
     end.
Proof.
  intros Hi Htruthy.
  destruct (cards_on_screen_listing w i card Hi)
    as (cs & cards & _ & Hcards & Hscreen & _).
  destruct (renderCards_courses w cs cards Hcards) as [_ Hkind].
  assert (Hin : In card cards).
  { rewrite Hscreen in Hi. apply list_elem_of_lookup_2, list_elem_of_In in Hi.
    exact Hi. }
  specialize (Hkind card Hin).
  assert (Hd : dispatch (CourseOpened i) w = handleCourseSelect (course_of card) w).
  { unfold dispatch. rewrite Hi. destruct (renderContent w); reflexivity. }
  rewrite Hd. unfold isTeacher in Hkind.
  unfold renderContent, renderDashboardContent, isTeacher.
  destruct card as [course|course enroll]; cbn [course_of] in *;
    destruct w; exec; cbn [user] in Hkind; rewrite Hkind; cbn;
    rewrite Htruthy; repeat split.
Qed.

(** X16: cards are on screen only on the idle board: not on the login or
    register form, not behind a course detail, and not while the catalog
    is loading.  So on a detail screen no course can be opened and no
    Enroll button pressed. *)
Theorem cards_only_on_idle_board (w : World) (i : nat) :
  (forall card, cards_on_screen w !! i = Some card ->
                currentView w <> "login" /\ currentView w <> "register"
                /\ truthy (selectedCourse w) = false
                /\ isLoading w = false)
  /\ (truthy (selectedCourse w) = true ->
        dispatch (CourseOpened i) w = (inr tt, w)
        /\ dispatch (EnrollClicked i) w = (inr tt, w)).
Proof.
  split.
  - intros card Hi.
    destruct (cards_on_screen_listing w i card Hi)
      as (cs & cards & _ & _ & _ & Hlogin & Hreg & Hsel & Hload).
    apply String.eqb_neq in Hlogin, Hreg. auto.
  - intros Hsel. unfold dispatch.
    destruct (cards_on_screen w !! i) as [card|] eqn:Hi.
    + destruct (cards_on_screen_listing w i card Hi)
        as (cs & cards & _ & _ & _ & _ & _ & Hsel' & _).
      congruence.
    + repeat split; destruct (renderContent w); reflexivity.
Qed.

(** ** Logout and requests in flight *)

(** X15: logout cancels nothing.  A refresh that was outstanding at
    logout still settles afterwards and stores the courses it brings,
    although there is no Identity and no stored credential any more and
    the login form is shown. *)
Theorem logout_does_not_cancel
    (w : World) (i : nat) (status : Z) (cs : list JSValue) :
  pending w !! i = Some InFetchCourses ->
  let w1 := step LogoutRequested w in
  let w2 := step (Settled i (Responded status (Some (VArr cs)))) w1 in
  courses w1 = VArr []
  /\ pending w1 = pending w
  /\ courses w2 = VArr cs
  /\ user w2 = VNull
  /\ localStorage w2 !! "token" = None
  /\ renderContent w2 = inr LoginForm.
Proof.
  intros Hi.
  assert (H1 : step LogoutRequested w =
            mkWorld "login" VNull (VArr []) VNull (isLoading w) (error w)
                    (showConfirmDialog w) (enrollingCourse w)
                    (delete "token" (localStorage w)) (pending w)
                    (effects w) false).
  { unfold step, dispatch. destruct (renderContent w) as [?|[]];
      destruct w; exec; destruct (_ || _); reflexivity. }
  cbn zeta. rewrite H1. cbn [courses pending].
  split; [reflexivity|]. split; [reflexivity|].
  unfold step, dispatch, resume. cbn [pending]. rewrite Hi.
  unfold renderContent at 1. cbn [currentView String.eqb Ascii.eqb Bool.eqb].
  exec. cbn [isArray]. unfold renderContent.
  cbn [currentView String.eqb Ascii.eqb Bool.eqb].
  rewrite lookup_delete_eq. repeat split.
Qed.

(** X17: responses are applied in the order they arrive, not in the order
    they were asked for.  With two refreshes outstanding, if the later
    request is answered first and the earlier one afterwards, the catalog
    ends up holding the answer to the earlier request. *)
Theorem stale_response_overwrites
    (w : World) (i j : nat) (s1 s2 : Z) (older newer : list JSValue) :
  pending w !! i = Some InFetchCourses ->
  pending w !! j = Some InFetchCourses ->
  (i < j)%nat ->
  let w1 := step (Settled j (Responded s2 (Some (VArr newer)))) w in
  let w2 := step (Settled i (Responded s1 (Some (VArr older)))) w1 in
  courses w1 = VArr newer /\ courses w2 = VArr older.
Proof.
  intros Hi Hj Hij.
  assert (Hsettle : forall (w0 : World) (k : nat) (st : Z) (cs : list JSValue),
            pending w0 !! k = Some InFetchCourses ->
            courses (step (Settled k (Responded st (Some (VArr cs)))) w0) = VArr cs
            /\ forall t, delete k (pending w0) !! i = Some t ->
                 pending (step (Settled k (Responded st (Some (VArr cs)))) w0) !! i
                 = Some t).
  { intros w0 k st cs Hk. unfold step, dispatch, resume. rewrite Hk.
    destruct (renderContent w0); destruct w0; exec; cbn [isArray]; exec;
      branches; cbn [pending courses]; split; try reflexivity;
      intros t Ht; try exact Ht; apply lookup_app_l_Some; exact Ht. }
  cbn zeta. destruct (Hsettle w j s2 newer Hj) as [Hc1 Hp1].
  split; [exact Hc1|].
  apply Hsettle. apply Hp1. rewrite list_lookup_delete_lt by exact Hij. exact Hi.
Qed.

End Properties.

(** * The component at work *)

Section AtWork.

#[local] Existing Instance demo_platform.

Example atob_padded : Base64.atob "WzEsMl0=" = Some "[1,2]".
Proof. reflexivity. Qed.

Example atob_unpadded : Base64.atob "bnVsbA" = Some "null".
Proof. reflexivity. Qed.

Example atob_of_undefined : Base64.atob "undefined" = None.
Proof. reflexivity. Qed.

Example atob_not_base64 : Base64.atob "!!!" = None.
Proof. reflexivity. Qed.

Example split_token : split_dot "header.e30.signature" = ["header"; "e30"; "signature"].
Proof. reflexivity. Qed.

Example split_trailing_dot : split_dot "a." = ["a"; EmptyString].
Proof. reflexivity. Qed.

Example browsing_board :
  renderContent browsing
  = inr (CourseBoard false
           (CourseGrid [StudentCard course7 (EnrollButton false)])).
Proof. vm_compute. reflexivity. Qed.


(** C2, counterexample: a refresh is answered with status 500 and an error
    object while the catalog holds one course.  [error] is not set and the
    course is gone. *)
Lemma failed_refresh_drops_courses :
  let before :=
    run [Settled 0 (Responded 200 (Some (VArr [course7])))]
        (mount {["token" := anonymous_token]}) in
  let after := step (Settled 0 (Responded 500 (Some error_body))) before in
  ok 500 = false
  /\ pending before = [InFetchCourses]
  /\ courses before = VArr [course7]
  /\ courses after = VArr []
  /\ error after = None
  /\ isLoading after = false.
Proof. vm_compute. repeat split; reflexivity. Qed.



(** C7, witness: a stored credential that decodes, and a run after it. *)
Lemma first_fetch_unauthenticated_witness :
  head (effects browsing)
  = Some (Fetch (mkRequest GET "http://localhost:5000/api/courses" [] None))
  /\ forallb authorized (tail (effects browsing)) = true.
Proof.
  destruct (first_fetch_unauthenticated (P:=demo_platform)
              {["token" := anonymous_token]} anonymous_token (VObj [])
              courses_arrive browsing)
    as (Hfirst & Hrest & _).
  - vm_compute. reflexivity.
  - discriminate.
  - vm_compute. reflexivity.
  - split; [exact Hfirst | exact Hrest].
Defined.

(** C8, witness: an error object is not a sequence. *)
Lemma non_sequence_body_witness :
  isArray error_body = false
  /\ courses (snd (fetchCourses_settled (Responded 500 (Some error_body)) browsing))
     = VArr [].
Proof.
  split; [reflexivity|].
  destruct (non_sequence_body_empties_courses (P:=demo_platform) browsing 500 error_body)
    as (_ & _ & _ & H); [reflexivity | exact H].
Defined.



(** A login answered twice while a course is open: the detail screen is
    shown under the view name dashboard. *)
Example detail_under_dashboard_view :
  let w :=
    run [LoginSubmitted alice; LoginSubmitted alice;
         Settled 0 (Responded 200 (Some (token_body anonymous_token)));
         Settled 1 (Responded 200 (Some (VArr [course7])));
         CourseOpened 0;
         Settled 0 (Responded 200 (Some (token_body anonymous_token)))]
        (mount ∅) in
  currentView w = "dashboard"
  /\ renderContent w = inr (StudentCourseDetail course7).
Proof. vm_compute. split; reflexivity. Qed.

(** ** Further runs *)

Example two_refreshes_pending :
  pending two_refreshes = [InFetchCourses; InFetchCourses].
Proof. vm_compute. reflexivity. Qed.

Example null_course_breaks_board :
  renderContent
    (run [Settled 0 (Responded 200 (Some (VArr [VNull])));
          Settled 0 (Responded 200 (Some (VArr [VNull])))]
         (mount {["token" := anonymous_token]}))
  = inl TypeError.
Proof. vm_compute. reflexivity. Qed.

(** X3, witness: the key [theme] survives a restored session. *)
Lemma storage_only_token_witness :
  localStorage (run courses_arrive (mount themed_storage)) !! "theme"
  = Some "dark".
Proof.
  destruct (storage_only_token (P:=demo_platform)
              themed_storage courses_arrive BackClicked browsing "theme")
    as [Hkey _]; [discriminate|].
  rewrite Hkey. vm_compute. reflexivity.
Defined.

(** X4, witness: right after a restoration the catalog is loading. *)
Lemma loading_has_refresh_outstanding_witness :
  isLoading (run [] (mount {["token" := anonymous_token]})) = true
  /\ (0 < refreshes_outstanding
            (run [] (mount {["token" := anonymous_token]})))%nat.
Proof.
  assert (Hload :
    isLoading (run [] (mount {["token" := anonymous_token]})) = true)
    by (vm_compute; reflexivity).
  split; [exact Hload|].
  exact (loading_has_refresh_outstanding (P:=demo_platform)
           {["token" := anonymous_token]} [] Hload).
Defined.


(** X7, witness: the login is answered with a token that decodes to
    [null]. *)
Lemma login_with_falsy_payload_witness :
  let w' := step (Settled 0 (Responded 200 (Some (token_body null_token))))
                 logging_in in
  user w' = VNull /\ currentView w' = "dashboard"
  /\ effects w' = effects logging_in.
Proof.
  destruct (login_with_falsy_payload (P:=demo_platform)
              logging_in 0 200 (token_body null_token) (VStr null_token) VNull)
    as (Huser & Hview & _ & _ & _ & Heffects).
  - vm_compute. reflexivity.
  - reflexivity.
  - vm_compute. reflexivity.
  - reflexivity.
  - split; [exact Huser | split; [exact Hview | exact Heffects]].
Defined.

(** X8, witness: a forged header and signature around the same middle
    piece. *)
Lemma payload_reads_middle_piece_witness :
  payload (VStr "header.e30.signature") = payload (VStr "x.e30.forged").
Proof.
  destruct (payload_reads_middle_piece (P:=demo_platform)
              "header" "x" "e30" "signature" "forged")
    as (H & _); [reflexivity | reflexivity | reflexivity | exact H].
Defined.

(** X9, witness: the text a failed login leaves in storage. *)
Lemma token_without_dot_throws_witness :
  initializeSession (initial {["token" := "undefined"]})
  = (inl InvalidCharacterError, initial {["token" := "undefined"]}).
Proof.
  destruct (token_without_dot_throws (P:=demo_platform)
              {["token" := "undefined"]} "undefined")
    as (_ & H); [vm_compute; reflexivity | discriminate | reflexivity | exact H].
Defined.

(** X11, witness: the one card of the board. *)
Lemma cards_follow_courses_witness :
  map course_of (cards_on_screen browsing) = [course7].
Proof.
  destruct (cards_follow_courses (P:=demo_platform)
              browsing one_course 0 course7_card)
    as (H & _); [vm_compute; reflexivity | vm_compute; reflexivity | exact H].
Defined.

(** X12, witness: the backend answers with a list holding [null]. *)
Lemma course_list_throws_on_null_witness :
  courses null_catalog = VArr null_courses
  /\ renderCourseList null_catalog = inl TypeError
  /\ renderContent null_catalog = inl TypeError.
Proof.
  assert (Hcourses : courses null_catalog = VArr null_courses)
    by (vm_compute; reflexivity).
  destruct (course_list_throws_on_null (P:=demo_platform)
              null_catalog null_courses Hcourses)
    as [Hlist Hscreen]; [reflexivity|].
  split; [exact Hcourses|]. split; [exact Hlist|].
  apply Hscreen; vm_compute; reflexivity.
Defined.

(** X13, witness: the teacher's board. *)
Lemma teacher_cannot_enroll_witness :
  isTeacher teaching = true
  /\ cards_on_screen teaching = [TeacherCard course7]
  /\ dispatch (EnrollClicked 0) teaching = (inr tt, teaching).
Proof.
  assert (Hrole : isTeacher teaching = true) by reflexivity.
  destruct (teacher_cannot_enroll (P:=demo_platform) teaching 0 Hrole)
    as (_ & H).
  split; [exact Hrole|]. split; [vm_compute; reflexivity | exact H].
Defined.

(** X14, witness: the student opens the one course. *)
Lemma open_course_shows_detail_witness :
  renderContent (snd (dispatch (CourseOpened 0) browsing))
  = inr (StudentCourseDetail course7).
Proof.
  destruct (open_course_shows_detail (P:=demo_platform)
              browsing 0 course7_card)
    as (_ & _ & H); [vm_compute; reflexivity | reflexivity | exact H].
Defined.

(** X15, witness: logout right after a restoration, then the refresh
    arrives. *)
Lemma logout_does_not_cancel_witness :
  let w := mount {["token" := anonymous_token]} in
  pending w !! 1%nat = Some InFetchCourses
  /\ courses (step (Settled 1 (Responded 200 (Some (VArr [course7]))))
                   (step LogoutRequested w))
     = VArr [course7].
Proof.
  assert (Hpending :
    pending (mount {["token" := anonymous_token]}) !! 1%nat
    = Some InFetchCourses) by (vm_compute; reflexivity).
  split; [exact Hpending|].
  destruct (logout_does_not_cancel (P:=demo_platform)
              (mount {["token" := anonymous_token]}) 1 200 one_course Hpending)
    as (_ & _ & H & _).
  exact H.
Defined.

(** X16, witness: behind the detail screen nothing can be opened. *)
Lemma cards_only_on_idle_board_witness :
  let detail := step (CourseOpened 0) browsing in
  truthy (selectedCourse detail) = true
  /\ dispatch (CourseOpened 0) detail = (inr tt, detail).
Proof.
  assert (Hsel :
    truthy (selectedCourse (step (CourseOpened 0) browsing)) = true)
    by (vm_compute; reflexivity).
  split; [exact Hsel|].
  destruct (cards_only_on_idle_board (P:=demo_platform)
              (step (CourseOpened 0) browsing) 0) as [_ H].
  destruct (H Hsel) as (Hopen & _). exact Hopen.
Defined.

(** X17, witness: of two refreshes the second is answered first. *)
Lemma stale_response_overwrites_witness :
  courses (step (Settled 0 (Responded 200 (Some (VArr []))))
                (step (Settled 1 (Responded 200 (Some (VArr [course7]))))
                      two_refreshes))
  = VArr [].
Proof.
  destruct (stale_response_overwrites (P:=demo_platform)
              two_refreshes 0 1 200 200 no_course one_course)
    as (_ & H);
    [vm_compute; reflexivity | vm_compute; reflexivity | lia | exact H].
Defined.

End AtWork.
